(** * chainer.initializers.constant: Identity, Constant, Zero, One, NaN

    A shallow embedding of [chainer/initializers/constant.py].

    - Arrays live in a store: an array object is a C-contiguous view
      (buffer, offset, shape, dtype) of a buffer of device memory, and
      several objects may view one buffer, as numpy slices do.  An
      initializer that holds an array as its [fill_value] holds a reference
      to it, as the Python object does.
    - Elements are IEEE-754 values, described with the executable
      specification of floating-point numbers of the Standard Library
      ([SpecFloat]); the dtypes are the floating ones of parameter arrays
      ([float16], [float32], [float64]) and a value is rounded to the dtype
      of the array it is assigned into.
    - A call is a computation in a state-and-exception monad, so that what
      an aborted call leaves behind can be stated.
    - numpy and cupy, which the module calls through [device.xp], are
      described by what their documentation says of [identity], [asarray],
      [isscalar], [*] and [array[...] = value]. *)

From Stdlib Require Import ZArith Lia Bool.
From Stdlib Require Import Floats.SpecFloat.
From stdpp Require Import base option list gmap strings.

Local Open Scope Z_scope.

(** ** Floating-point elements *)

(** Python's [float] and numpy's [float64] are binary64: 53 bits of
    precision, infinities at exponent 1024. *)
Definition float := spec_float.

Definition prec64 : Z := 53.
Definition emax64 : Z := 1024.

(** The literals [1.0], [0.0] and [numpy.nan]. *)
Definition one64 : float := S754_finite false 4503599627370496 (-52).
Definition zero64 : float := S754_zero false.
Definition nan64 : float := S754_nan.

(** The product of two binary64 values, rounded to nearest even. *)
Definition mul64 (x y : float) : float := SFmul prec64 emax64 x y.


Definition is_finite (x : float) : bool :=
  match x with
  | S754_zero _ | S754_finite _ _ _ => true
  | S754_infinity _ | S754_nan => false
  end.


(** [x == y] on floats, whatever their widths: NaN equals nothing, the two
    signed zeros are equal, and finite numbers are compared by value,
    [m * 2 ^ e], after alignment on the smaller exponent. *)
Definition float_eqb (x y : float) : bool :=
  match x, y with
  | S754_zero _, S754_zero _ => true
  | S754_infinity sx, S754_infinity sy => eqb sx sy
  | S754_finite sx mx ex, S754_finite sy my ey =>
      eqb sx sy
      && (Z.pos mx * 2 ^ (ex - Z.min ex ey) =? Z.pos my * 2 ^ (ey - Z.min ex ey))
  | _, _ => false
  end.

(** [float(z)] for a Python int: the nearest binary64 value. *)
Definition float_of_int (z : Z) : float := binary_normalize prec64 emax64 z 0 false.

(** ** Data types of arrays *)

(** The floating dtypes of parameter arrays. *)
Inductive np_dtype := float16 | float32 | float64.

#[global] Instance np_dtype_eq_dec : EqDecision np_dtype.
Proof. solve_decision. Defined.

Definition dtype_prec (d : np_dtype) : Z :=
  match d with
  | float16 => 11
  | float32 => 24
  | float64 => 53
  end.

Definition dtype_emax (d : np_dtype) : Z :=
  match d with
  | float16 => 16
  | float32 => 128
  | float64 => 1024
  end.


(** Conversion of a floating value to dtype [d], as an assignment into an
    array of that dtype performs it: the nearest value of the format, ties
    to even. *)
Definition round_to (d : np_dtype) (x : float) : float :=
  match x with
  | S754_finite s m e => binary_round (dtype_prec d) (dtype_emax d) s m e
  | _ => x
  end.

(** An element of a temporary array: numpy keeps integers (and booleans)
    as integers until they are assigned into a floating array. *)
Inductive num :=
  | NInt (z : Z)
  | NFloat (f : float).

(** The numpy cast of one element to dtype [d].  An integer that fits a
    64-bit integer dtype is rounded once to [d]; a larger Python int is an
    object that goes through [float(z)], which raises [OverflowError]
    (here [None]) when it has no binary64 value. *)
Definition cast (d : np_dtype) (v : num) : option float :=
  match v with
  | NFloat f => Some (round_to d f)
  | NInt z =>
      if (- 2 ^ 63 <=? z) && (z <? 2 ^ 64)
      then Some (binary_normalize (dtype_prec d) (dtype_emax d) z 0 false)
      else match float_of_int z with
           | S754_infinity _ => None
           | f => Some (round_to d f)
           end
  end.

(** The binary64 value of a numpy element that takes part in float64
    arithmetic. *)
Definition to_float64 (v : num) : option float :=
  match v with
  | NFloat f => Some f
  | NInt z =>
      match float_of_int z with
      | S754_infinity _ => None
      | f => Some f
      end
  end.

(** ** Python values *)

(** Numeric scalars. *)
Inductive scalar :=
  | PyBool (b : bool)
  | PyInt (z : Z)
  | PyFloat (f : float).

(** References to array objects. *)
Definition ref := nat.

(** The objects a [fill_value] can be. *)
Inductive pyobj :=
  | PyNone
  | PyNum (s : scalar)
  | PyStr (s : string)
  | PyArray (r : ref).

(** The element numpy makes of a numeric scalar. *)
Definition num_of_scalar (s : scalar) : num :=
  match s with
  | PyBool b => NInt (Z.b2z b)
  | PyInt z => NInt z
  | PyFloat f => NFloat f
  end.

(** A plain number, as opposed to text. *)
Definition is_numeric (o : pyobj) : bool :=
  match o with
  | PyNum _ => true
  | _ => false
  end.

(** ** Exceptions *)

Inductive exn :=
  | AssertionError
  | ValueError (msg : string)
  | TypeError (msg : string)
  | OverflowError
  | Fault.
(** [Fault] is not a Python exception: it is the result of running on a
    store in which a reference dangles or a view leaves its buffer, which
    no Python program can build. *)

#[global] Instance exn_eq_dec : EqDecision exn.
Proof. solve_decision. Defined.

(** ** The store: array objects over shared buffers *)

Local Open Scope nat_scope.

Inductive device :=
  | CpuDevice
  | GpuDevice (id : nat).

#[global] Instance device_eq_dec : EqDecision device.
Proof. solve_decision. Defined.

(** The array module [device.xp] of a device. *)
Inductive array_module := numpy | cupy.

Definition xp (d : device) : array_module :=
  match d with
  | CpuDevice => numpy
  | GpuDevice _ => cupy
  end.

(** A buffer of device memory, in elements. *)
Record buffer := Buffer {
  buf_device : device;
  buf_cells : list float
}.

(** An array object: a C-contiguous view of [size nd_shape] cells of the
    buffer [nd_data], from cell [nd_offset] on. *)
Record ndarray := NdArray {
  nd_data : nat;
  nd_offset : nat;
  nd_shape : list nat;
  nd_dtype : np_dtype
}.

Record store := Store {
  objects : gmap nat ndarray;
  memory : gmap nat buffer
}.

(** ** The monad of Python calls: state and exceptions *)

Inductive outcome (A : Type) :=
  | Return (a : A)
  | Raise (e : exn).
Arguments Return {A} a.
Arguments Raise {A} e.

Definition M (A : Type) : Type := store -> outcome A * store.

Definition ret {A} (a : A) : M A := fun st => (Return a, st).

Definition raise {A} (e : exn) : M A := fun st => (Raise e, st).

Definition bind {A B} (m : M A) (k : A -> M B) : M B :=
  fun st =>
    match m st with
    | (Return a, st') => k a st'
    | (Raise e, st') => (Raise e, st')
    end.

Notation "x <- c1 ;; c2" := (bind c1 (fun x => c2))
  (at level 100, c1 at next level, right associativity).
Notation "c1 ;; c2" := (bind c1 (fun _ => c2))
  (at level 100, right associativity).

(** The [assert] statement, as the interpreter runs it without [-O]. *)
Definition py_assert (b : bool) : M unit :=
  if b then ret tt else raise AssertionError.

(** Reading the attributes of an array object. *)
Definition getattr (array : ref) : M ndarray :=
  fun st =>
    match objects st !! array with
    | Some a => (Return a, st)
    | None => (Raise Fault, st)
    end.

(** ** Shapes, indices and temporary arrays *)

(** [array.size]: the number of elements of an array of a given shape. *)
Definition shape_size (shape : list nat) : nat := foldr Nat.mul 1 shape.

(** The multi-indices of a shape, in row-major (C) order. *)
Fixpoint indices (shape : list nat) : list (list nat) :=
  match shape with
  | [] => [[]]
  | n :: shape' => flat_map (fun i => cons i <$> indices shape') (seq 0 n)
  end.

(** The position of a multi-index in row-major order. *)
Fixpoint ravel (shape idx : list nat) : nat :=
  match shape, idx with
  | _ :: shape', i :: idx' => i * shape_size shape' + ravel shape' idx'
  | _, _ => 0
  end.

(** [idx] is a valid multi-index of [shape]. *)
Definition in_bounds (idx shape : list nat) : Prop := Forall2 lt idx shape.

(** A temporary array, the value of an expression: nothing else refers to
    it, so it is its shape and its elements in row-major order. *)
Record tensor (A : Type) := Tensor {
  t_shape : list nat;
  t_data : list A
}.
Arguments Tensor {A} t_shape t_data.
Arguments t_shape {A} t.
Arguments t_data {A} t.

Definition tensor_map {A B} (f : A -> B) (t : tensor A) : tensor B :=
  Tensor (t_shape t) (f <$> t_data t).

(** Broadcasting: the source shape is aligned with the trailing axes of the
    target shape, and each source axis has the length of the target axis
    or length 1. *)
Definition broadcastable (src dst : list nat) : bool :=
  bool_decide (length src <= length dst)
  && forallb (fun sd => (fst sd =? snd sd) || (fst sd =? 1))
       (zip src (drop (length dst - length src) dst)).

(** The source index read for the target index [idx]: the leading axes the
    source does not have are dropped and an axis of length 1 is read at 0. *)
Definition source_index (src idx : list nat) : list nat :=
  zip_with (fun s i => if s =? 1 then 0 else i) src
    (drop (length idx - length src) idx).

(** The elements of [t] replicated to [shape], [None] when the shapes do
    not broadcast. *)
Definition broadcast_to {A} (shape : list nat) (t : tensor A) : option (list A) :=
  if broadcastable (t_shape t) shape
  then mapM (fun idx => t_data t !! ravel (t_shape t) (source_index (t_shape t) idx))
         (indices shape)
  else None.

(** ** The array modules: numpy and cupy *)

(** [xp.identity(n)]: the n-by-n float64 array with ones where the row
    index equals the column index. *)
Definition identity (m : array_module) (n : nat) : tensor float :=
  Tensor [n; n]
    ((fun idx => if bool_decide (idx !! 0 = idx !! 1) then one64 else zero64)
       <$> indices [n; n]).

(** [a * s] for a float64 array [a] and a Python scalar [s]: the scalar is
    taken to float64 and multiplied into every element. *)
Definition multiply (a : tensor float) (s : scalar) : M (tensor float) :=
  match to_float64 (num_of_scalar s) with
  | Some y => ret (tensor_map (fun x => mul64 x y) a)
  | None => raise OverflowError
  end.

(** [numpy.isscalar]: Python numbers, and also [str] and [bytes]; not
    [None], not arrays (not even 0-dimensional ones). *)
Definition isscalar (o : pyobj) : bool :=
  match o with
  | PyNum _ | PyStr _ => true
  | PyNone | PyArray _ => false
  end.

(** The cells of a view. *)
Definition read_cells (a : ndarray) : M (list float) :=
  fun st =>
    match memory st !! nd_data a with
    | Some b =>
        if bool_decide (nd_offset a + shape_size (nd_shape a) <= length (buf_cells b))
        then (Return (take (shape_size (nd_shape a)) (drop (nd_offset a) (buf_cells b))), st)
        else (Raise Fault, st)
    | None => (Raise Fault, st)
    end.

(** Overwriting the cells of a view, in place. *)
Definition write_cells (a : ndarray) (cells : list float) : M unit :=
  fun st =>
    match memory st !! nd_data a with
    | Some b =>
        if bool_decide (nd_offset a + length cells <= length (buf_cells b))
        then (Return tt,
              Store (objects st)
                (<[nd_data a := Buffer (buf_device b)
                     (list_inserts (nd_offset a) cells (buf_cells b))]> (memory st)))
        else (Raise Fault, st)
    | None => (Raise Fault, st)
    end.

(** [xp.asarray(o)] as the value of an assignment into a floating array:
    a number is a 0-dimensional array; an array is itself.  Text that is
    not a number and [None] have no floating value: the assignment that
    follows raises, which is raised here. *)
Definition asarray (m : array_module) (o : pyobj) : M (tensor num) :=
  match o with
  | PyNum s => ret (Tensor [] [num_of_scalar s])
  | PyArray r =>
      a <- getattr r ;;
      cells <- read_cells a ;;
      ret (Tensor (nd_shape a) (NFloat <$> cells))
  | PyStr _ => raise (ValueError "could not convert string to float")
  | PyNone => raise (TypeError "float() argument must be a string or a number")
  end.

(** [array[...] = value]: the value is broadcast to the shape of the array,
    cast to its dtype and written over its cells.  The array object itself
    (shape, dtype, buffer) is not changed. *)
Definition setitem_ellipsis (array : ref) (value : tensor num) : M unit :=
  a <- getattr array ;;
  match broadcast_to (nd_shape a) value with
  | None => raise (ValueError "could not broadcast input array")
  | Some vs =>
      match mapM (cast (nd_dtype a)) vs with
      | None => raise OverflowError
      | Some cells => write_cells a cells
      end
  end.

(** ** The chainer collaborators of the module *)

(** Modelled from the spec: [chainer.get_array_types()] is not part of the
    module; the spec has it recognise every "array-like value of a
    device-recognized numeric-array kind", which here is every array object,
    on whatever device.  [is_array o] is
    [isinstance(o, chainer.get_array_types())]. *)
Definition is_array (o : pyobj) : bool :=
  match o with
  | PyArray _ => true
  | _ => false
  end.

Module backend.

(** Modelled from the spec: [backend.get_device_from_array] is not part of
    the module; the spec asks of it "a way to determine which device an
    array resides on", which is the device of the buffer the array views. *)
Definition get_device_from_array (array : ref) : M device :=
  a <- getattr array ;;
  fun st =>
    match memory st !! nd_data a with
    | Some b => (Return (buf_device b), st)
    | None => (Raise Fault, st)
    end.

(** Modelled from the spec: [backend.copyto] is not part of the module; the
    spec has it "perform a device-aware copy into the target array,
    transferring data across devices as needed so the result lands
    correctly on the target array's device", "with correct broadcasting".
    The values of the source are read (and brought to the device of the
    target), then written over the target as a broadcast assignment. *)
Definition copyto (dst : ref) (src : pyobj) : M unit :=
  match src with
  | PyArray r =>
      s <- getattr r ;;
      cells <- read_cells s ;;
      setitem_ellipsis dst (Tensor (nd_shape s) (NFloat <$> cells))
  | _ => raise (TypeError "cannot copy from a non-array object")
  end.

End backend.

(** ** The initializers *)

Module Initializer.

(** Modelled from the spec: the base class [chainer.initializer.Initializer]
    is not part of the module; the spec has it hold "an optional expected
    dtype".  Its [__init__] stores the dtype in the attribute [dtype] of the
    object under construction: the value of that attribute is what this
    returns. *)
Definition __init__ (dtype : option np_dtype) : M (option np_dtype) :=
  ret dtype.

End Initializer.

Module Identity.

(** The attributes of an [Identity] object. *)
Record t := Build {
  scale : scalar;
  dtype : option np_dtype
}.

(** [Identity(scale=1.0, dtype=None)]: the scale is stored, then the base
    class stores the dtype. *)
Definition __init__ (scale : scalar) (dtype : option np_dtype) : M t :=
  dtype' <- Initializer.__init__ dtype ;;
  ret (Build scale dtype').

Definition error_message : string :=
  "Identity matrix initialization can only be used for 2D squared matrices.".

(** [shape !!! k] is [shape[k]]; it is only looked at when the shape has
    two axes, since [or] evaluates its right operand only then. *)
Definition __call__ (self : t) (array : ref) : M unit :=
  a <- getattr array ;;
  match dtype self with
  | Some d => py_assert (bool_decide (nd_dtype a = d))
  | None => ret tt
  end ;;
  let shape := nd_shape a in
  if negb (length shape =? 2) || negb (shape !!! 0 =? shape !!! 1)
  then raise (ValueError error_message)
  else
    device <- backend.get_device_from_array array ;;
    value <- multiply (identity (xp device) (shape !!! 0)) (scale self) ;;
    setitem_ellipsis array (tensor_map NFloat value).

End Identity.

Module _Constant.

(** The attributes of a constant initializer. *)
Record t := Build {
  fill_value : pyobj;
  dtype : option np_dtype
}.

Definition error_message : string :=
  "fill_value must be either scalar, numpy.ndarray, cupy.ndarray or chainerx.ndarray.".

(** [fill_value] is the class attribute (or the attribute the subclass
    has set) that [self.fill_value] finds when [__init__] runs. *)
Definition __init__ (fill_value : pyobj) (dtype : option np_dtype) : M t :=
  if negb (is_array fill_value || isscalar fill_value)
  then raise (ValueError error_message)
  else
    dtype' <- Initializer.__init__ dtype ;;
    ret (Build fill_value dtype').

Definition __call__ (self : t) (array : ref) : M unit :=
  a <- getattr array ;;
  match dtype self with
  | Some d => py_assert (bool_decide (nd_dtype a = d))
  | None => ret tt
  end ;;
  if is_array (fill_value self)
  then backend.copyto array (fill_value self)
  else
    device <- backend.get_device_from_array array ;;
    value <- asarray (xp device) (fill_value self) ;;
    setitem_ellipsis array value.

End _Constant.

(** [Constant(fill_value, dtype=None)] sets the attribute [fill_value] and
    leaves the rest to [_Constant]. *)
Module Constant.
Definition __init__ (fill_value : pyobj) (dtype : option np_dtype) : M _Constant.t :=
  _Constant.__init__ fill_value dtype.
End Constant.

(** [Zero], [One] and [NaN] fix [fill_value] as a class attribute and
    inherit [__init__] and [__call__] from [_Constant]. *)
Module Zero.
Definition fill_value : pyobj := PyNum (PyFloat zero64).
Definition __init__ (dtype : option np_dtype) : M _Constant.t :=
  _Constant.__init__ fill_value dtype.
End Zero.

Module One.
Definition fill_value : pyobj := PyNum (PyFloat one64).
Definition __init__ (dtype : option np_dtype) : M _Constant.t :=
  _Constant.__init__ fill_value dtype.
End One.

Module NaN.
Definition fill_value : pyobj := PyNum (PyFloat nan64).
Definition __init__ (dtype : option np_dtype) : M _Constant.t :=
  _Constant.__init__ fill_value dtype.
End NaN.

(** The initializer variants behind the one capability [apply]. *)
Inductive initializer :=
  | IdentityInitializer (i : Identity.t)
  | ConstantInitializer (c : _Constant.t).

Definition declared_dtype (init : initializer) : option np_dtype :=
  match init with
  | IdentityInitializer i => Identity.dtype i
  | ConstantInitializer c => _Constant.dtype c
  end.

(** [init(array)], the operation the specification calls [apply]. *)
Definition apply (init : initializer) (array : ref) : M unit :=
  match init with
  | IdentityInitializer i => Identity.__call__ i array
  | ConstantInitializer c => _Constant.__call__ c array
  end.

(** ** Observing the store *)

(** The element of an array at a multi-index. *)
Definition item (st : store) (array : ref) (idx : list nat) : option float :=
  a ← objects st !! array;
  b ← memory st !! nd_data a;
  buf_cells b !! (nd_offset a + ravel (nd_shape a) idx).

(** The elements of an array, in row-major order. *)
Definition contents (st : store) (array : ref) : option (list float) :=
  a ← objects st !! array;
  b ← memory st !! nd_data a;
  Some (take (shape_size (nd_shape a)) (drop (nd_offset a) (buf_cells b))).

(** The store after the cells of the view [a] of buffer [b] have been
    overwritten. *)
Definition overwrite (st : store) (a : ndarray) (b : buffer) (cells : list float) : store :=
  Store (objects st)
    (<[nd_data a := Buffer (buf_device b)
         (list_inserts (nd_offset a) cells (buf_cells b))]> (memory st)).


(** An allocated array: its view lies within an allocated buffer. *)
Definition allocated (st : store) (array : ref) (a : ndarray) (b : buffer) : Prop :=
  objects st !! array = Some a /\
  memory st !! nd_data a = Some b /\
  nd_offset a + shape_size (nd_shape a) <= length (buf_cells b).

(** ** What a successful call writes *)

(** The declared dtype, if any, is the dtype of the array. *)
Definition dtype_ok (init : initializer) (a : ndarray) : bool :=
  match declared_dtype init with
  | Some d => bool_decide (nd_dtype a = d)
  | None => true
  end.

(** The cells an assignment of [value] writes into the view [a]. *)
Definition assigned_cells (a : ndarray) (value : tensor num) : option (list float) :=
  broadcast_to (nd_shape a) value ≫= mapM (cast (nd_dtype a)).

(** The value an initializer assigns into the array [a], read off the two
    [__call__] methods: the scaled identity, the scalar, or the present
    cells of the [fill_value] array. *)
Definition assigned_value (init : initializer) (st : store) (a : ndarray)
  : option (tensor num) :=
  match init with
  | IdentityInitializer i =>
      match nd_shape a with
      | [n; m] =>
          if n =? m
          then f ← to_float64 (num_of_scalar (Identity.scale i));
               Some (tensor_map NFloat (tensor_map (fun x => mul64 x f) (identity numpy n)))
          else None
      | _ => None
      end
  | ConstantInitializer c =>
      match _Constant.fill_value c with
      | PyNum s => Some (Tensor [] [num_of_scalar s])
      | PyArray x =>
          s ← objects st !! x;
          b ← memory st !! nd_data s;
          if bool_decide (nd_offset s + shape_size (nd_shape s) <= length (buf_cells b))
          then Some (Tensor (nd_shape s)
                       (NFloat <$> take (shape_size (nd_shape s))
                                     (drop (nd_offset s) (buf_cells b))))
          else None
      | PyStr _ | PyNone => None
      end
  end.


(** The cells [Identity] writes into an n-by-n array of dtype [d] for a
    scale of binary64 value [f]. *)
Definition identity_cells (n : nat) (d : np_dtype) (f : float) : list float :=
  round_to d <$> t_data (tensor_map (fun x => mul64 x f) (identity numpy n)).


(** Text: [str] or [bytes]. *)
Definition is_text (o : pyobj) : bool :=
  match o with
  | PyStr _ => true
  | _ => false
  end.


(** A computation that never fails an [assert]. *)
Definition never_asserts {A} (m : M A) : Prop :=
  forall st, (m st).1 <> Raise AssertionError.

(** ** Example stores *)

Definition two64 : float := S754_finite false 4503599627370496 (-51).
Definition three64 : float := S754_finite false 6755399441055744 (-51).
Definition inf64 : float := S754_infinity false.

(** One freshly allocated host array filled with [v],
    [numpy.full(shape, v, d)], bound to reference 0. *)
Definition full_store (shape : list nat) (d : np_dtype) (v : float) : store :=
  Store {[ 0 := NdArray 0 0 shape d ]}
        {[ 0 := Buffer CpuDevice (replicate (shape_size shape) v) ]}.

(** [numpy.zeros(shape, d)]. *)
Definition zeros_store (shape : list nat) (d : np_dtype) : store :=
  full_store shape d zero64.

(** [base = numpy.arange(4.)] with the two overlapping views [base[0:3]]
    (reference 0) and [base[1:4]] (reference 1) on the host, a 2-by-3
    float32 host array pre-filled with the sentinel NaN (reference 2), and a
    float32 vector of three ones on GPU 0 (reference 3). *)
Definition views_store : store :=
  Store {[ 0 := NdArray 0 0 [3] float64;
           1 := NdArray 0 1 [3] float64;
           2 := NdArray 1 0 [2; 3] float32;
           3 := NdArray 2 0 [3] float32 ]}
        {[ 0 := Buffer CpuDevice [zero64; one64; two64; three64];
           1 := Buffer CpuDevice (replicate 6 nan64);
           2 := Buffer (GpuDevice 0) (replicate 3 (round_to float32 one64)) ]}.

(** ** Notions for the further properties *)

(** A computation that never changes the store. *)
Definition readonly {A} (m : M A) : Prop :=
  forall st, (m st).2 = st.

(** A computation that, when it raises, has left the store as it found it. *)
Definition raises_clean {A} (m : M A) : Prop :=
  forall st e st', m st = (Raise e, st') -> st' = st.


(** The initializer with another declared dtype. *)
Definition set_dtype (dt : option np_dtype) (init : initializer) : initializer :=
  match init with
  | IdentityInitializer i => IdentityInitializer (Identity.Build (Identity.scale i) dt)
  | ConstantInitializer c =>
      ConstantInitializer (_Constant.Build (_Constant.fill_value c) dt)
  end.

(** * Properties *)

(** ** The initializers on small arrays *)

(** [Identity(scale=2.0)] on [numpy.zeros((2, 2))]. *)
Example identity_two_by_two :
  let init := IdentityInitializer (Identity.Build (PyFloat two64) None) in
  let once := apply init 0 (zeros_store [2; 2] float64) in
  once.1 = Return tt
  /\ contents once.2 0 = Some [two64; zero64; zero64; two64].
Proof. vm_compute. done. Qed.

(** [Identity()] on a 2-by-3 array pre-filled with NaN: the error, and the
    sentinel still in place. *)
Example identity_two_by_three :
  let init := IdentityInitializer (Identity.Build (PyFloat one64) None) in
  let once := apply init 0 (full_store [2; 3] float32 nan64) in
  once.1 = Raise (ValueError Identity.error_message)
  /\ contents once.2 0 = Some (replicate 6 nan64).
Proof. vm_compute. done. Qed.

(** [Zero()], [One()] and [NaN()] on a float16 vector, and [_Constant()]
    itself, whose [fill_value] is [None]. *)
Example zero_one_nan_float16 :
  let st := full_store [2] float16 two64 in
  let run (c : M _Constant.t) :=
    match c st with
    | (Return init, st') => contents (apply (ConstantInitializer init) 0 st').2 0
    | (Raise _, _) => None
    end in
  run (Zero.__init__ None) = Some [zero64; zero64]
  /\ run (One.__init__ (Some float16)) = Some (replicate 2 (S754_finite false 1024 (-10)))
  /\ run (NaN.__init__ None) = Some [nan64; nan64]
  /\ (_Constant.__init__ PyNone None st).1 = Raise (ValueError _Constant.error_message).
Proof. vm_compute. done. Qed.

(** ** Shapes and indices *)

Lemma length_flat_map_const {A B} (f : A -> list B) (l : list A) (k : nat) :
  (forall x, length (f x) = k) -> length (flat_map f l) = length l * k.
Proof.
  intros Hf. induction l as [|x l IH]; simpl; [done|].
  rewrite length_app, Hf, IH. lia.
Qed.

Lemma lookup_flat_map_const {A B} (f : A -> list B) (l : list A) (k i j : nat) :
  (forall x, length (f x) = k) -> j < k ->
  flat_map f l !! (i * k + j) = (l !! i) ≫= fun x => f x !! j.
Proof.
  intros Hf Hj. revert i. induction l as [|x l IH]; intros i; simpl.
  - by rewrite !lookup_nil.
  - destruct i as [|i]; simpl.
    + rewrite lookup_app_l by (rewrite Hf; lia). done.
    + rewrite lookup_app_r by (rewrite Hf; lia).
      rewrite Hf. replace (k + i * k + j - k) with (i * k + j) by lia. apply IH.
Qed.

Lemma length_indices shape : length (indices shape) = shape_size shape.
Proof.
  induction shape as [|n shape IH]; simpl; [done|].
  rewrite (length_flat_map_const _ _ (shape_size shape)).
  - by rewrite length_seq.
  - intros i. by rewrite length_fmap.
Qed.

Lemma ravel_lt shape idx : in_bounds idx shape -> ravel shape idx < shape_size shape.
Proof.
  intros H. induction H as [|i n idx shape Hi _ IH]; simpl; [lia|]. nia.
Qed.

(** Row-major order: the multi-index [idx] stands at position
    [ravel shape idx] of the enumeration. *)
Lemma lookup_indices shape idx :
  in_bounds idx shape -> indices shape !! ravel shape idx = Some idx.
Proof.
  intros H. induction H as [|i n idx shape Hi Hb IH]; simpl; [done|].
  rewrite (lookup_flat_map_const _ _ (shape_size shape)).
  - rewrite lookup_seq_lt by done. simpl. rewrite list_lookup_fmap, IH. done.
  - intros x. by rewrite length_fmap, length_indices.
  - by apply ravel_lt.
Qed.

Lemma indices_in_bounds shape idx : idx ∈ indices shape -> in_bounds idx shape.
Proof.
  revert idx. induction shape as [|n shape IH]; intros idx; simpl.
  - intros ->%list_elem_of_singleton. constructor.
  - rewrite list_elem_of_In, in_flat_map. intros (i & Hi & Hidx).
    apply in_seq in Hi.
    apply list_elem_of_In, list_elem_of_fmap in Hidx as (idx' & -> & Hidx').
    constructor; [lia|]. by apply IH.
Qed.

Lemma lookup_indices_inv shape k idx :
  indices shape !! k = Some idx -> in_bounds idx shape /\ ravel shape idx = k.
Proof.
  intros Hk. assert (Hb : in_bounds idx shape).
  { apply indices_in_bounds, list_elem_of_lookup; eauto. }
  split; [done|].
  revert k idx Hk Hb. induction shape as [|n shape IH]; intros k idx Hk Hb.
  - inversion Hb; subst. destruct k; [done|]. simpl in Hk. by rewrite lookup_nil in Hk.
  - inversion Hb as [|i n' idx' shape' Hi Hb']; subst. simpl in *.
    assert (Hrow : forall x : nat, length (cons x <$> indices shape) = shape_size shape).
    { intros x. by rewrite length_fmap, length_indices. }
    assert (Hlen : k < n * shape_size shape).
    { apply lookup_lt_Some in Hk.
      by rewrite (length_flat_map_const _ _ _ Hrow), length_seq in Hk. }
    assert (Hpos : 0 < shape_size shape) by nia.
    pose proof (Nat.div_mod_eq k (shape_size shape)) as Hdm.
    pose proof (Nat.mod_upper_bound k (shape_size shape) ltac:(lia)) as Hm.
    set (q := k `div` shape_size shape) in *.
    set (r := k `mod` shape_size shape) in *.
    assert (q < n) by nia.
    rewrite Hdm, (Nat.mul_comm (shape_size shape) q) in Hk.
    rewrite (lookup_flat_map_const _ _ _ _ _ Hrow Hm) in Hk.
    rewrite lookup_seq_lt in Hk by done. simpl in Hk.
    rewrite list_lookup_fmap in Hk.
    destruct (indices shape !! r) as [idx''|] eqn:Hr; simplify_eq/=.
    apply IH in Hr; [|done]. lia.
Qed.

(** ** Broadcasting *)

Lemma source_index_same shape idx :
  in_bounds idx shape -> source_index shape idx = idx.
Proof.
  intros H. unfold source_index.
  rewrite (Forall2_length _ _ _ H), Nat.sub_diag, drop_0.
  induction H as [|i n idx shape Hi _ IH]; simpl; [done|].
  rewrite IH. destruct (n =? 1) eqn:Hn; [|done].
  apply Nat.eqb_eq in Hn. f_equal. lia.
Qed.

Lemma broadcastable_refl shape : broadcastable shape shape = true.
Proof.
  unfold broadcastable. rewrite bool_decide_true by done.
  rewrite Nat.sub_diag, drop_0. simpl.
  induction shape as [|n shape IH]; simpl; [done|].
  by rewrite Nat.eqb_refl, IH.
Qed.


Lemma length_broadcast_to {A} shape (t : tensor A) vs :
  broadcast_to shape t = Some vs -> length vs = shape_size shape.
Proof.
  unfold broadcast_to. destruct (broadcastable _ _); [|done].
  intros H%length_mapM. by rewrite <- H, length_indices.
Qed.




(** A value of the shape of the target is assigned as it is. *)
Lemma broadcast_to_same {A} shape (data : list A) :
  length data = shape_size shape ->
  broadcast_to shape (Tensor shape data) = Some data.
Proof.
  intros Hlen. unfold broadcast_to. simpl. rewrite broadcastable_refl.
  apply mapM_Some, Forall2_same_length_lookup_2.
  - by rewrite length_indices.
  - intros k idx x Hk Hx. apply lookup_indices_inv in Hk as [Hb <-].
    by rewrite source_index_same.
Qed.

Lemma mapM_const {A B} (y : B) (l : list A) :
  mapM (fun _ => Some y) l = Some (replicate (length l) y).
Proof. apply mapM_Some. induction l as [|x l IH]; by constructor. Qed.

(** A 0-dimensional value is replicated over the whole target. *)
Lemma broadcast_to_scalar {A} shape (x : A) :
  broadcast_to shape (Tensor [] [x]) = Some (replicate (shape_size shape) x).
Proof.
  unfold broadcast_to. simpl. rewrite <- length_indices.
  apply (mapM_const x).
Qed.

(** ** Floating-point facts *)

Local Open Scope Z_scope.







Local Close Scope Z_scope.

(** ** Casting on assignment *)

Lemma mapM_cast_NFloat d (xs : list float) :
  mapM (cast d) (NFloat <$> xs) = Some (round_to d <$> xs).
Proof. apply mapM_Some. induction xs as [|x xs IH]; by constructor. Qed.

Lemma mapM_cast_replicate d n x v :
  cast d x = Some v -> mapM (cast d) (replicate n x) = Some (replicate n v).
Proof. intros Hx. apply mapM_Some. induction n as [|n IH]; by constructor. Qed.


Lemma assigned_cells_scalar a x v :
  cast (nd_dtype a) x = Some v ->
  assigned_cells a (Tensor [] [x]) = Some (replicate (shape_size (nd_shape a)) v).
Proof.
  intros Hx. unfold assigned_cells. rewrite broadcast_to_scalar. simpl.
  by apply mapM_cast_replicate.
Qed.


(** ** Reading and writing the store *)

Lemma contents_item st r a cs idx :
  objects st !! r = Some a -> contents st r = Some cs ->
  in_bounds idx (nd_shape a) ->
  item st r idx = cs !! ravel (nd_shape a) idx.
Proof.
  unfold contents, item. intros -> Hc Hb. simpl in *.
  destruct (memory st !! nd_data a) as [b|]; simplify_eq/=.
  rewrite lookup_take_lt by (by apply ravel_lt). by rewrite lookup_drop.
Qed.

Lemma contents_overwrite st r a b cells :
  allocated st r a b -> length cells = shape_size (nd_shape a) ->
  contents (overwrite st a b cells) r = Some cells.
Proof.
  intros (Ho & Hm & Hlen) Hc. unfold contents, overwrite. simpl.
  rewrite Ho. simpl. rewrite lookup_insert_eq. simpl. f_equal.
  apply list_eq. intros i.
  destruct (decide (i < shape_size (nd_shape a))) as [Hi|Hi].
  - rewrite lookup_take_lt, lookup_drop by done.
    rewrite list_lookup_inserts by lia. f_equal. lia.
  - rewrite lookup_take_ge by lia. symmetry. apply lookup_ge_None. lia.
Qed.

Lemma item_overwrite st r a b cells idx :
  allocated st r a b -> length cells = shape_size (nd_shape a) ->
  in_bounds idx (nd_shape a) ->
  item (overwrite st a b cells) r idx = cells !! ravel (nd_shape a) idx.
Proof.
  intros Hal Hc Hb. apply contents_item; [by destruct Hal| |done].
  by apply contents_overwrite.
Qed.


Lemma write_cells_ok st r a b cells :
  allocated st r a b -> length cells = shape_size (nd_shape a) ->
  write_cells a cells st = (Return tt, overwrite st a b cells).
Proof.
  intros (Ho & Hm & Hlen) Hc. unfold write_cells. rewrite Hm.
  rewrite bool_decide_true by lia. done.
Qed.

Lemma get_device_ok st r a b :
  allocated st r a b ->
  backend.get_device_from_array r st = (Return (buf_device b), st).
Proof.
  intros (Ho & Hm & _). unfold backend.get_device_from_array, bind, getattr.
  by rewrite Ho, Hm.
Qed.

Lemma allocated_full_store shape d v :
  allocated (full_store shape d v) 0 (NdArray 0 0 shape d)
    (Buffer CpuDevice (replicate (shape_size shape) v)).
Proof. repeat split. simpl. by rewrite length_replicate. Qed.



(** ** The two [__call__] methods, characterised *)

Lemma declared_check_eq (dt : option np_dtype) a st :
  (match dt with
   | Some d => py_assert (bool_decide (nd_dtype a = d))
   | None => ret tt
   end) st
  = if match dt with Some d => bool_decide (nd_dtype a = d) | None => true end
    then (Return tt, st) else (Raise AssertionError, st).
Proof. destruct dt as [d|]; [|done]. unfold py_assert. by destruct (bool_decide _). Qed.

(** A mismatch of the declared dtype is the first thing a call finds. *)
Lemma apply_dtype_mismatch init r st a :
  objects st !! r = Some a -> dtype_ok init a = false ->
  apply init r st = (Raise AssertionError, st).
Proof.
  intros Ho Hd. destruct init as [i|c]; unfold apply, dtype_ok, declared_dtype in *.
  - unfold Identity.__call__, bind at 1 2, getattr. rewrite Ho, declared_check_eq, Hd. done.
  - unfold _Constant.__call__, bind at 1 2, getattr. rewrite Ho, declared_check_eq, Hd. done.
Qed.

Lemma setitem_ellipsis_Return st r v st' :
  setitem_ellipsis r v st = (Return tt, st') <->
  exists a b cells, allocated st r a b /\ assigned_cells a v = Some cells /\
                    st' = overwrite st a b cells.
Proof.
  unfold setitem_ellipsis, bind, getattr, assigned_cells. split.
  - destruct (objects st !! r) as [a|] eqn:Ho; [|done].
    destruct (broadcast_to (nd_shape a) v) as [vs|] eqn:Hb; [|done].
    destruct (mapM (cast (nd_dtype a)) vs) as [cells|] eqn:Hc; [|done].
    unfold write_cells. destruct (memory st !! nd_data a) as [b|] eqn:Hm; [|done].
    case_bool_decide as Hlen; [|done]. intros [= <-].
    exists a, b, cells. rewrite Hb. simpl. repeat split; try done.
    apply length_mapM in Hc. apply length_broadcast_to in Hb. lia.
  - intros (a & b & cells & Hal & Hc & ->).
    destruct (broadcast_to (nd_shape a) v) as [vs|] eqn:Hb; [|done].
    change (mapM (cast (nd_dtype a)) vs = Some cells) in Hc.
    pose proof Hal as (Ho & _). rewrite Ho, Hb, Hc.
    apply (write_cells_ok st r); [done|].
    apply length_mapM in Hc. apply length_broadcast_to in Hb. lia.
Qed.

(** A call returns exactly when the array is allocated, the declared dtype
    (if any) is its dtype, and the value to assign broadcasts and casts to
    it; the call then overwrites the cells of the array and nothing else. *)
Lemma apply_Return init r st st' :
  apply init r st = (Return tt, st') <->
  exists a b v cells,
    allocated st r a b /\ dtype_ok init a = true /\
    assigned_value init st a = Some v /\ assigned_cells a v = Some cells /\
    st' = overwrite st a b cells.
Proof.
  split.
  - destruct init as [i|c]; unfold apply, dtype_ok, declared_dtype, assigned_value.
    + unfold Identity.__call__, bind at 1 2, getattr at 1.
      destruct (objects st !! r) as [a|] eqn:Ho; [|done].
      rewrite declared_check_eq.
      destruct (match Identity.dtype i with
                | Some d => bool_decide (nd_dtype a = d) | None => true end) eqn:Hdt;
        [|done].
      destruct (nd_shape a) as [|n [|m [|]]] eqn:Hs; try done.
      simpl. change (m :: inhabitant) with [m].
      destruct (n =? m) eqn:Hnm; [|done]. simpl.
      unfold bind at 1.
      destruct (backend.get_device_from_array r st) as [[dev|e] st1] eqn:Hdev; [|done].
      unfold multiply, bind at 1.
      destruct (to_float64 _) as [f|] eqn:Hf; [|done]. unfold ret.
      unfold backend.get_device_from_array, bind, getattr in Hdev. rewrite Ho in Hdev.
      destruct (memory st !! nd_data a) as [b0|] eqn:Hm; simplify_eq.
      intros (a' & b & cells & Hal & Hc & ->)%setitem_ellipsis_Return.
      assert (a' = a) as -> by (destruct Hal as [Ho' _]; congruence).
      exists a, b. eexists _, cells. rewrite Hs, Hnm. simpl.
      split; [exact Hal|]. split; [exact Hdt|]. split; [reflexivity|].
      split; [exact Hc|reflexivity].
    + unfold _Constant.__call__, bind at 1 2, getattr at 1.
      destruct (objects st !! r) as [a|] eqn:Ho; [|done].
      rewrite declared_check_eq.
      destruct (match _Constant.dtype c with
                | Some d => bool_decide (nd_dtype a = d) | None => true end) eqn:Hdt;
        [|done].
      destruct (_Constant.fill_value c) as [|s|s|x] eqn:Hfv; simpl.
      * unfold bind. by destruct (backend.get_device_from_array r st) as [[dev|e] st1].
      * unfold bind at 1.
        destruct (backend.get_device_from_array r st) as [[dev|e] st1] eqn:Hdev; [|done].
        unfold bind, ret.
        unfold backend.get_device_from_array, bind, getattr in Hdev. rewrite Ho in Hdev.
        destruct (memory st !! nd_data a) as [b0|] eqn:Hm; simplify_eq.
        intros (a' & b & cells & Hal & Hc & ->)%setitem_ellipsis_Return.
        assert (a' = a) as -> by (destruct Hal as [Ho' _]; congruence).
        exists a, b. by eexists _, cells.
      * unfold bind. by destruct (backend.get_device_from_array r st) as [[dev|e] st1].
      * unfold bind at 1 2, getattr, read_cells.
        destruct (objects st !! x) as [s|] eqn:Hx; [|done].
        destruct (memory st !! nd_data s) as [bs|] eqn:Hbs; [|done].
        case_bool_decide as Hlen; [|done].
        intros (a' & b & cells & Hal & Hc & ->)%setitem_ellipsis_Return.
        assert (a' = a) as -> by (destruct Hal as [Ho' _]; congruence).
        exists a, b. eexists _, cells. simpl. rewrite Hbs. simpl.
        by rewrite bool_decide_true by done.
  - intros (a & b & v & cells & Hal & Hdt & Hv & Hc & ->).
    pose proof Hal as (Ho & Hm & Hlen).
    assert (Hset : setitem_ellipsis r v st = (Return tt, overwrite st a b cells)).
    { apply setitem_ellipsis_Return. by exists a, b, cells. }
    destruct init as [i|c]; unfold apply, dtype_ok, declared_dtype, assigned_value in *.
    + unfold Identity.__call__, bind at 1 2, getattr at 1.
      rewrite Ho, declared_check_eq, Hdt.
      destruct (nd_shape a) as [|n [|m [|]]] eqn:Hs; try done.
      simpl. change (m :: inhabitant) with [m].
      destruct (n =? m) eqn:Hnm; [|done]. simpl.
      unfold bind at 1. rewrite (get_device_ok st r a b Hal).
      unfold multiply, bind at 1.
      destruct (to_float64 _) as [f|] eqn:Hf; simplify_eq/=. done.
    + unfold _Constant.__call__, bind at 1 2, getattr at 1.
      rewrite Ho, declared_check_eq, Hdt.
      destruct (_Constant.fill_value c) as [|s|s|x] eqn:Hfv; simplify_eq/=.
      * unfold bind at 1. by rewrite (get_device_ok st r a b Hal).
      * unfold bind at 1 2, getattr, read_cells.
        destruct (objects st !! x) as [s|] eqn:Hx; simplify_eq/=.
        destruct (memory st !! nd_data s) as [bs|] eqn:Hbs; simplify_eq/=.
        case_bool_decide; simplify_eq/=. done.
Qed.

(** ** Identity *)

Lemma length_identity_cells n d f : length (identity_cells n d f) = shape_size [n; n].
Proof.
  unfold identity_cells, tensor_map, identity. cbn [t_data t_shape].
  by rewrite !length_fmap, length_indices.
Qed.

Lemma lookup_identity_cells n d f p q :
  p < n -> q < n ->
  identity_cells n d f !! ravel [n; n] [p; q]
  = Some (round_to d (mul64 (if bool_decide (p = q) then one64 else zero64) f)).
Proof.
  intros Hp Hq. unfold identity_cells, tensor_map, identity. cbn [t_data t_shape].
  rewrite !list_lookup_fmap, lookup_indices by (repeat constructor; done).
  simpl. rewrite (bool_decide_ext (Some p = Some q) (p = q)) by naive_solver. done.
Qed.

Lemma assigned_cells_identity a n f :
  nd_shape a = [n; n] ->
  assigned_cells a (tensor_map NFloat (tensor_map (fun x => mul64 x f) (identity numpy n)))
  = Some (identity_cells n (nd_dtype a) f).
Proof.
  intros Hs. unfold assigned_cells. rewrite Hs.
  change (tensor_map NFloat (tensor_map (fun x => mul64 x f) (identity numpy n)))
    with (Tensor [n; n]
            (NFloat <$> t_data (tensor_map (fun x => mul64 x f) (identity numpy n)))).
  rewrite broadcast_to_same.
  - apply mapM_cast_NFloat.
  - unfold tensor_map, identity. cbn [t_data t_shape].
    by rewrite !length_fmap, length_indices.
Qed.

(** What [Identity.__call__] does to an allocated square array, in full. *)
Lemma identity_call_eval st r a b n i :
  allocated st r a b -> nd_shape a = [n; n] ->
  apply (IdentityInitializer i) r st
  = if dtype_ok (IdentityInitializer i) a
    then match to_float64 (num_of_scalar (Identity.scale i)) with
         | Some f => (Return tt, overwrite st a b (identity_cells n (nd_dtype a) f))
         | None => (Raise OverflowError, st)
         end
    else (Raise AssertionError, st).
Proof.
  intros Hal Hs. pose proof Hal as (Ho & Hm & Hlen).
  destruct (dtype_ok (IdentityInitializer i) a) eqn:Hd;
    [|by apply (apply_dtype_mismatch _ _ _ a)].
  destruct (to_float64 (num_of_scalar (Identity.scale i))) as [f|] eqn:Hf.
  - apply apply_Return. exists a, b. eexists _, _. repeat split; try done.
    + simpl. rewrite Hs, Nat.eqb_refl, Hf. done.
    + by apply assigned_cells_identity.
  - unfold apply, Identity.__call__, bind at 1 2, getattr.
    rewrite Ho, declared_check_eq. unfold dtype_ok, declared_dtype in Hd. rewrite Hd.
    rewrite Hs. simpl. rewrite Nat.eqb_refl. simpl.
    unfold bind at 1. rewrite (get_device_ok st r a b Hal).
    unfold multiply, bind. by rewrite Hf.
Qed.


(** ** Constant *)

Lemma dtype_ok_constant fv dt a :
  dt = None \/ dt = Some (nd_dtype a) ->
  dtype_ok (ConstantInitializer (_Constant.Build fv dt)) a = true.
Proof. unfold dtype_ok. intros [-> | ->]; simpl; [done|]. by apply bool_decide_true. Qed.

Lemma constant_scalar_eval st r a b s dt v :
  allocated st r a b ->
  dt = None \/ dt = Some (nd_dtype a) ->
  cast (nd_dtype a) (num_of_scalar s) = Some v ->
  apply (ConstantInitializer (_Constant.Build (PyNum s) dt)) r st
  = (Return tt, overwrite st a b (replicate (shape_size (nd_shape a)) v)).
Proof.
  intros Hal Hdt Hc. apply apply_Return. exists a, b. eexists _, _.
  repeat split; try done; try apply Hal.
  - by apply dtype_ok_constant.
  - by apply assigned_cells_scalar.
Qed.



(** ** No assertion but the dtype check *)

Create HintDb asserts discriminated.

Lemma never_asserts_ret {A} (x : A) : never_asserts (ret x).
Proof. by intros st. Qed.

Lemma never_asserts_raise {A} e : e <> AssertionError -> never_asserts (@raise A e).
Proof. intros He st. simpl. congruence. Qed.

Lemma never_asserts_bind {A B} (m : M A) (k : A -> M B) :
  never_asserts m -> (forall x, never_asserts (k x)) -> never_asserts (bind m k).
Proof.
  intros Hm Hk st. unfold bind. specialize (Hm st).
  destruct (m st) as [[x|e] st1]; simpl in *; [apply Hk|].
  intros [= ->]. by apply Hm.
Qed.

Lemma never_asserts_getattr r : never_asserts (getattr r).
Proof. intros st. unfold getattr. by destruct (objects st !! r). Qed.

Lemma never_asserts_read_cells a : never_asserts (read_cells a).
Proof.
  intros st. unfold read_cells. destruct (memory st !! nd_data a); [|done].
  by case_bool_decide.
Qed.

Lemma never_asserts_write_cells a cells : never_asserts (write_cells a cells).
Proof.
  intros st. unfold write_cells. destruct (memory st !! nd_data a); [|done].
  by case_bool_decide.
Qed.

#[local] Hint Resolve never_asserts_ret never_asserts_bind never_asserts_getattr
  never_asserts_read_cells never_asserts_write_cells : asserts.
#[local] Hint Extern 1 (never_asserts (raise _)) =>
  (apply never_asserts_raise; discriminate) : asserts.

Lemma never_asserts_get_device r : never_asserts (backend.get_device_from_array r).
Proof.
  unfold backend.get_device_from_array. apply never_asserts_bind; [auto with asserts|].
  intros a st. by destruct (memory st !! nd_data a).
Qed.

Lemma never_asserts_multiply t s : never_asserts (multiply t s).
Proof. unfold multiply. destruct (to_float64 _); auto with asserts. Qed.

Lemma never_asserts_setitem r v : never_asserts (setitem_ellipsis r v).
Proof.
  unfold setitem_ellipsis. apply never_asserts_bind; [auto with asserts|]. intros a.
  destruct (broadcast_to _ _); [|auto with asserts].
  destruct (mapM _ _); auto with asserts.
Qed.

#[local] Hint Resolve never_asserts_get_device never_asserts_multiply
  never_asserts_setitem : asserts.

Lemma never_asserts_asarray m o : never_asserts (asarray m o).
Proof. destruct o; simpl; auto 6 with asserts. Qed.

Lemma never_asserts_copyto dst src : never_asserts (backend.copyto dst src).
Proof. destruct src; simpl; auto 6 with asserts. Qed.

#[local] Hint Resolve never_asserts_asarray never_asserts_copyto : asserts.

Ltac by_never_asserts :=
  match goal with
  | |- (?m ?st).1 <> Raise AssertionError =>
      let H := fresh in
      assert (H : never_asserts m) by auto 6 with asserts; apply H
  end.

Lemma apply_dtype_ok_no_assert init r st a :
  objects st !! r = Some a -> dtype_ok init a = true ->
  (apply init r st).1 <> Raise AssertionError.
Proof.
  intros Ho Hd. destruct init as [i|c]; unfold apply, dtype_ok, declared_dtype in *.
  - unfold Identity.__call__, bind at 1 2, getattr. rewrite Ho, declared_check_eq, Hd.
    cbv beta iota zeta. destruct (negb _ || negb _); [done|].
    by_never_asserts.
  - unfold _Constant.__call__, bind at 1 2, getattr. rewrite Ho, declared_check_eq, Hd.
    cbv beta iota. destruct (is_array _); by_never_asserts.
Qed.

(** * The claims *)

(** ** C1: Identity writes the scaled identity matrix *)




(** ** C2: Identity refuses an array that is not a square matrix *)

(** C2: on an array that is not 2-D or not square, and whose dtype is the
    declared one (if any), [Identity.__call__] raises the [ValueError] that
    names the constraint, and the store, hence every element of the array,
    is as before. *)
Theorem identity_call_shape_error st r a i :
  objects st !! r = Some a ->
  dtype_ok (IdentityInitializer i) a = true ->
  (forall n, nd_shape a <> [n; n]) ->
  apply (IdentityInitializer i) r st
  = (Raise (ValueError Identity.error_message), st).
Proof.
  intros Ho Hd Hs. unfold apply, Identity.__call__, bind at 1 2, getattr.
  rewrite Ho, declared_check_eq. unfold dtype_ok, declared_dtype in Hd. rewrite Hd.
  destruct (nd_shape a) as [|n [|m [|]]] eqn:Hshape; try done.
  simpl. destruct (n =? m) eqn:Hnm; [|done].
  apply Nat.eqb_eq in Hnm as ->. by destruct (Hs m).
Qed.

Lemma identity_call_shape_error_witness :
  let st := full_store [2; 3] float32 nan64 in
  apply (IdentityInitializer (Identity.Build (PyFloat one64) (Some float32))) 0 st
  = (Raise (ValueError Identity.error_message), st).
Proof.
  apply (identity_call_shape_error (full_store [2; 3] float32 nan64) 0
           (NdArray 0 0 [2; 3] float32)).
  - reflexivity.
  - reflexivity.
  - intros n [= Hn Hm]. lia.
Defined.

(** ** C3: Constant validates its fill value when it is constructed *)

(** C3 as stated fails: a piece of text is neither a plain number nor an
    array, and constructing [Constant] with it raises nothing. *)
Lemma constant_init_accepts_text :
  is_numeric (PyStr "abc") = false
  /\ is_array (PyStr "abc") = false
  /\ Constant.__init__ (PyStr "abc") None (zeros_store [2; 2] float64)
     = (Return (_Constant.Build (PyStr "abc") None), zeros_store [2; 2] float64).
Proof. done. Qed.

(** C3, amended: constructing [Constant] returns the initializer exactly
    when [fill_value] is an array or a scalar in the sense of
    [numpy.isscalar], that is a number or a piece of text; otherwise it
    raises the [ValueError] about [fill_value].  Either way the store is
    left as it was. *)
Theorem constant_init_validation fill_value dt st :
  isscalar fill_value = is_numeric fill_value || is_text fill_value
  /\ Constant.__init__ fill_value dt st
     = if is_array fill_value || isscalar fill_value
       then (Return (_Constant.Build fill_value dt), st)
       else (Raise (ValueError _Constant.error_message), st).
Proof.
  split; [by destruct fill_value|].
  unfold Constant.__init__, _Constant.__init__.
  by destruct (is_array fill_value || isscalar fill_value).
Qed.

(** ** C4: a scalar fill value fills the array *)



(** [Constant(5)] on arrays of rank 0, 1, 2 and 3. *)
Example constant_five_ranks :
  let init := ConstantInitializer (_Constant.Build (PyNum (PyInt 5)) None) in
  let five := S754_finite false 5629499534213120 (-50) in
  contents (apply init 0 (zeros_store [] float64)).2 0 = Some [five]
  /\ contents (apply init 0 (zeros_store [3] float64)).2 0 = Some (replicate 3 five)
  /\ contents (apply init 0 (zeros_store [2; 2] float64)).2 0 = Some (replicate 4 five)
  /\ contents (apply init 0 (zeros_store [2; 1; 2] float64)).2 0 = Some (replicate 4 five)
  /\ float_eqb five (float_of_int 5) = true.
Proof. vm_compute. done. Qed.

(** ** C5: an array fill value is copied across devices *)



(** ** C6: the declared dtype is asserted *)

(** C6: when the initializer declares a dtype and the array has another
    one, the call fails the assertion ([AssertionError], which is not the
    [ValueError] of the validations) and the store is untouched; when the
    initializer declares no dtype, or the dtype of the array, no
    [AssertionError] is raised. *)
Theorem declared_dtype_assertion init r st a :
  objects st !! r = Some a ->
  (forall d, declared_dtype init = Some d -> nd_dtype a <> d ->
     apply init r st = (Raise AssertionError, st))
  /\ (declared_dtype init = None \/ declared_dtype init = Some (nd_dtype a) ->
      (apply init r st).1 <> Raise AssertionError).
Proof.
  intros Ho. split.
  - intros d Hd Hne. apply (apply_dtype_mismatch _ _ _ a); [done|].
    unfold dtype_ok. rewrite Hd. by apply bool_decide_false.
  - intros Hd. apply (apply_dtype_ok_no_assert _ _ _ a); [done|].
    unfold dtype_ok. destruct Hd as [-> | ->]; [done|]. by apply bool_decide_true.
Qed.

Lemma declared_dtype_assertion_witness :
  let st := zeros_store [3] float32 in
  let init := ConstantInitializer (_Constant.Build (PyNum (PyFloat one64)) (Some float64)) in
  (forall d, declared_dtype init = Some d -> float32 <> d ->
     apply init 0 st = (Raise AssertionError, st))
  /\ (declared_dtype init = None \/ declared_dtype init = Some float32 ->
      (apply init 0 st).1 <> Raise AssertionError).
Proof.
  apply (declared_dtype_assertion
           (ConstantInitializer (_Constant.Build (PyNum (PyFloat one64)) (Some float64)))
           0 (zeros_store [3] float32) (NdArray 0 0 [3] float32)).
  reflexivity.
Defined.

(** ** C7: a call changes the elements of the array and nothing else *)



(** ** C8: applying twice *)




(** ** C9: the dtype assertion comes before the shape validation *)

(** C9: on an array that has another dtype than the declared one and is
    not a square matrix, [Identity.__call__] fails the assertion, store
    untouched, and raises no [ValueError]. *)
Theorem identity_call_dtype_before_shape st r a scale d :
  objects st !! r = Some a ->
  nd_dtype a <> d ->
  (forall n, nd_shape a <> [n; n]) ->
  apply (IdentityInitializer (Identity.Build scale (Some d))) r st
    = (Raise AssertionError, st)
  /\ forall msg,
       (apply (IdentityInitializer (Identity.Build scale (Some d))) r st).1
       <> Raise (ValueError msg).
Proof.
  intros Ho Hd _.
  assert (H : apply (IdentityInitializer (Identity.Build scale (Some d))) r st
              = (Raise AssertionError, st)).
  { apply (apply_dtype_mismatch _ _ _ a); [done|].
    unfold dtype_ok. simpl. by rewrite bool_decide_false. }
  by rewrite H.
Qed.

Lemma identity_call_dtype_before_shape_witness :
  let st := full_store [2; 3] float32 nan64 in
  let init := IdentityInitializer (Identity.Build (PyFloat one64) (Some float64)) in
  apply init 0 st = (Raise AssertionError, st)
  /\ forall msg, (apply init 0 st).1 <> Raise (ValueError msg).
Proof.
  apply (identity_call_dtype_before_shape (full_store [2; 3] float32 nan64) 0
           (NdArray 0 0 [2; 3] float32) (PyFloat one64) float64).
  - reflexivity.
  - simpl. discriminate.
  - intros n [= Hn Hm]. lia.
Defined.

(** ** C10: Identity does not read the array *)

(** C10: on two allocated arrays of one square shape, one dtype and one
    device, whatever they hold, [Identity.__call__] has the same outcome
    (it returns on both, or raises the same exception on both), and when it
    returns the two arrays have equal contents. *)
Theorem identity_call_ignores_contents i n st1 r1 a1 b1 st2 r2 a2 b2 :
  allocated st1 r1 a1 b1 ->
  allocated st2 r2 a2 b2 ->
  nd_shape a1 = [n; n] ->
  nd_shape a2 = [n; n] ->
  nd_dtype a1 = nd_dtype a2 ->
  buf_device b1 = buf_device b2 ->
  (apply (IdentityInitializer i) r1 st1).1 = (apply (IdentityInitializer i) r2 st2).1
  /\ ((apply (IdentityInitializer i) r1 st1).1 = Return tt ->
      is_Some (contents (apply (IdentityInitializer i) r1 st1).2 r1)
      /\ contents (apply (IdentityInitializer i) r1 st1).2 r1
         = contents (apply (IdentityInitializer i) r2 st2).2 r2).
Proof.
  intros Hal1 Hal2 Hs1 Hs2 Hdt _.
  rewrite (identity_call_eval st1 r1 a1 b1 n), (identity_call_eval st2 r2 a2 b2 n) by done.
  unfold dtype_ok. rewrite Hdt.
  destruct (match declared_dtype (IdentityInitializer i) with
            | Some d => bool_decide (nd_dtype a2 = d) | None => true end); [|done].
  destruct (to_float64 _) as [f|]; [|done]. simpl. split; [done|]. intros _.
  rewrite !contents_overwrite; try done.
  - by rewrite length_identity_cells, Hs2.
  - by rewrite length_identity_cells, Hs1.
Qed.

Lemma identity_call_ignores_contents_witness :
  let i := Identity.Build (PyFloat two64) None in
  let st1 := zeros_store [2; 2] float64 in
  let st2 := full_store [2; 2] float64 nan64 in
  (apply (IdentityInitializer i) 0 st1).1 = (apply (IdentityInitializer i) 0 st2).1
  /\ ((apply (IdentityInitializer i) 0 st1).1 = Return tt ->
      is_Some (contents (apply (IdentityInitializer i) 0 st1).2 0)
      /\ contents (apply (IdentityInitializer i) 0 st1).2 0
         = contents (apply (IdentityInitializer i) 0 st2).2 0).
Proof.
  apply (identity_call_ignores_contents (Identity.Build (PyFloat two64) None) 2
           (zeros_store [2; 2] float64) 0 (NdArray 0 0 [2; 2] float64)
           (Buffer CpuDevice (replicate 4 zero64))
           (full_store [2; 2] float64 nan64) 0 (NdArray 0 0 [2; 2] float64)
           (Buffer CpuDevice (replicate 4 nan64))); try reflexivity.
  - unfold allocated. split; [reflexivity|]. split; [reflexivity|]. simpl. lia.
  - unfold allocated. split; [reflexivity|]. split; [reflexivity|]. simpl. lia.
Defined.

(** * Further properties of the initializers *)

(** ** Nothing is written before the last step *)

Create HintDb effects discriminated.

Lemma readonly_ret {A} (x : A) : readonly (ret x).
Proof. by intros st. Qed.

Lemma readonly_raise {A} e : readonly (@raise A e).
Proof. by intros st. Qed.

Lemma readonly_bind {A B} (m : M A) (k : A -> M B) :
  readonly m -> (forall x, readonly (k x)) -> readonly (bind m k).
Proof.
  intros Hm Hk st. unfold bind. specialize (Hm st).
  destruct (m st) as [[x|e] st1]; simpl in *; subst; [apply Hk|done].
Qed.

Lemma readonly_py_assert b : readonly (py_assert b).
Proof. by destruct b. Qed.

Lemma readonly_getattr r : readonly (getattr r).
Proof. intros st. unfold getattr. by destruct (objects st !! r). Qed.

Lemma readonly_read_cells a : readonly (read_cells a).
Proof.
  intros st. unfold read_cells. destruct (memory st !! nd_data a); [|done].
  by case_bool_decide.
Qed.

#[local] Hint Resolve readonly_ret readonly_raise readonly_bind readonly_py_assert
  readonly_getattr readonly_read_cells : effects.

Lemma readonly_get_device r : readonly (backend.get_device_from_array r).
Proof.
  unfold backend.get_device_from_array. apply readonly_bind; [auto with effects|].
  intros a st. by destruct (memory st !! nd_data a).
Qed.

Lemma readonly_multiply t s : readonly (multiply t s).
Proof. unfold multiply. destruct (to_float64 _); auto with effects. Qed.

Lemma readonly_asarray m o : readonly (asarray m o).
Proof. destruct o; simpl; auto 6 with effects. Qed.

#[local] Hint Resolve readonly_get_device readonly_multiply readonly_asarray : effects.

Lemma raises_clean_readonly {A} (m : M A) : readonly m -> raises_clean m.
Proof. intros Hm st e st' H. specialize (Hm st). by rewrite H in Hm. Qed.

(** After steps that only read, a failure of what follows is a failure of
    the whole on the store as it was. *)
Lemma raises_clean_bind {A B} (m : M A) (k : A -> M B) :
  readonly m -> (forall x, raises_clean (k x)) -> raises_clean (bind m k).
Proof.
  intros Hm Hk st e st'. unfold bind. specialize (Hm st).
  destruct (m st) as [[x|e1] st1]; simpl in *; subst.
  - apply Hk.
  - by intros [= _ <-].
Qed.

Lemma raises_clean_write_cells a cells : raises_clean (write_cells a cells).
Proof.
  intros st e st'. unfold write_cells. destruct (memory st !! nd_data a); [|by intros [= _ <-]].
  case_bool_decide; [done|by intros [= _ <-]].
Qed.

Lemma raises_clean_setitem r v : raises_clean (setitem_ellipsis r v).
Proof.
  unfold setitem_ellipsis. apply raises_clean_bind; [auto with effects|]. intros a.
  destruct (broadcast_to _ _); [|apply raises_clean_readonly; auto with effects].
  destruct (mapM _ _); [apply raises_clean_write_cells|].
  apply raises_clean_readonly; auto with effects.
Qed.

Lemma raises_clean_copyto dst src : raises_clean (backend.copyto dst src).
Proof.
  destruct src; simpl; try solve [apply raises_clean_readonly; auto with effects].
  apply raises_clean_bind; [auto with effects|]. intros s.
  apply raises_clean_bind; [auto with effects|]. intros cells.
  apply raises_clean_setitem.
Qed.

(** X1: a call that raises, whatever it raises, has written nothing: the
    store is the one the call was given.  Every check and every conversion
    of the two [__call__] methods comes before the one assignment. *)
Theorem apply_raise_untouched init r st e st' :
  apply init r st = (Raise e, st') -> st' = st.
Proof.
  revert st e st'. change (raises_clean (apply init r)).
  destruct init as [i|c]; unfold apply.
  - unfold Identity.__call__.
    apply raises_clean_bind; [auto with effects|]. intros a.
    apply raises_clean_bind; [destruct (Identity.dtype i); auto with effects|]. intros _.
    cbv zeta. destruct (negb _ || negb _); [apply raises_clean_readonly; auto with effects|].
    apply raises_clean_bind; [auto with effects|]. intros device.
    apply raises_clean_bind; [auto with effects|]. intros value.
    apply raises_clean_setitem.
  - unfold _Constant.__call__.
    apply raises_clean_bind; [auto with effects|]. intros a.
    apply raises_clean_bind; [destruct (_Constant.dtype c); auto with effects|]. intros _.
    destruct (is_array _); [apply raises_clean_copyto|].
    apply raises_clean_bind; [auto with effects|]. intros device.
    apply raises_clean_bind; [auto with effects|]. intros value.
    apply raises_clean_setitem.
Qed.

Lemma apply_raise_untouched_witness :
  let init := ConstantInitializer (_Constant.Build (PyArray 2) None) in
  (apply init 0 views_store).2 = views_store.
Proof.
  apply (apply_raise_untouched
           (ConstantInitializer (_Constant.Build (PyArray 2) None)) 0 views_store
           (ValueError "could not broadcast input array")).
  vm_compute. reflexivity.
Defined.

(** ** One initializer after another *)




(** ** Arrays the call is not given *)



(** ** Arrays without elements *)



(** ** The declared dtype only gates *)

(** X5: an initializer that declares the dtype the array has does exactly
    what the same initializer without a declared dtype does: the same
    outcome and the same store.  The declared dtype is compared, never used
    to convert. *)
Theorem apply_declared_dtype init r st a :
  objects st !! r = Some a ->
  apply (set_dtype (Some (nd_dtype a)) init) r st = apply (set_dtype None init) r st.
Proof.
  intros Ho. destruct init as [i|c]; unfold apply, set_dtype.
  - unfold Identity.__call__, bind at 1 2 5 6, getattr.
    rewrite Ho, !declared_check_eq. simpl. by rewrite bool_decide_true.
  - unfold _Constant.__call__, bind at 1 2 4 5, getattr.
    rewrite Ho, !declared_check_eq. simpl. by rewrite bool_decide_true.
Qed.

Lemma apply_declared_dtype_witness :
  let st := full_store [2; 2] float16 nan64 in
  let i := Identity.Build (PyInt 3) None in
  apply (set_dtype (Some float16) (IdentityInitializer i)) 0 st
  = apply (set_dtype None (IdentityInitializer i)) 0 st.
Proof.
  apply (apply_declared_dtype (IdentityInitializer (Identity.Build (PyInt 3) None)) 0
           (full_store [2; 2] float16 nan64) (NdArray 0 0 [2; 2] float16)).
  reflexivity.
Defined.

(** ** The outcome of Identity, case by case *)





(** ** Identity with a scale that is not finite *)

Lemma mul64_one_not_finite x : is_finite x = false -> mul64 one64 x = x.
Proof. by destruct x. Qed.

Lemma mul64_zero_not_finite x : is_finite x = false -> mul64 zero64 x = nan64.
Proof. by destruct x. Qed.

Lemma round_to_not_finite d x : is_finite x = false -> round_to d x = x.
Proof. by destruct x. Qed.

(** X3: with a scale that is an infinity or NaN, [Identity.__call__] on an
    allocated square array still returns; it leaves the scale at every
    diagonal position and NaN at every other position, in every dtype. *)
Theorem identity_call_not_finite st r a b n i f :
  allocated st r a b ->
  nd_shape a = [n; n] ->
  dtype_ok (IdentityInitializer i) a = true ->
  Identity.scale i = PyFloat f ->
  is_finite f = false ->
  exists st',
    apply (IdentityInitializer i) r st = (Return tt, st')
    /\ forall p q, p < n -> q < n ->
         item st' r [p; q] = Some (if bool_decide (p = q) then f else nan64).
Proof.
  intros Hal Hs Hd Hscale Hf.
  rewrite (identity_call_eval st r a b n), Hd, Hscale by done. simpl.
  eexists. split; [done|]. intros p q Hp Hq.
  rewrite item_overwrite; try done.
  - rewrite Hs, lookup_identity_cells by done. case_bool_decide.
    + by rewrite mul64_one_not_finite, round_to_not_finite.
    + by rewrite mul64_zero_not_finite.
  - by rewrite length_identity_cells, Hs.
  - rewrite Hs. repeat constructor; done.
Qed.

Lemma identity_call_not_finite_witness :
  let st := full_store [3; 3] float16 one64 in
  exists st',
    apply (IdentityInitializer (Identity.Build (PyFloat inf64) (Some float16))) 0 st
    = (Return tt, st')
    /\ forall p q, p < 3 -> q < 3 ->
         item st' 0 [p; q] = Some (if bool_decide (p = q) then inf64 else nan64).
Proof.
  apply (identity_call_not_finite (full_store [3; 3] float16 one64) 0
           (NdArray 0 0 [3; 3] float16) (Buffer CpuDevice (replicate 9 one64)) 3
           (Identity.Build (PyFloat inf64) (Some float16)) inf64); try reflexivity.
  unfold allocated. split; [reflexivity|]. split; [reflexivity|]. simpl. lia.
Defined.

(** ** Identity with scale 0.0 is Zero *)

Lemma fmap_replicate_const {A B} (f : A -> B) (c : B) (l : list A) :
  (forall x, f x = c) -> f <$> l = replicate (length l) c.
Proof.
  intros Hf. induction l as [|x l IH]; [done|].
  rewrite fmap_cons, Hf, IH. done.
Qed.

Lemma identity_cells_zero n d :
  identity_cells n d zero64 = replicate (shape_size [n; n]) zero64.
Proof.
  unfold identity_cells, tensor_map, identity. cbn [t_data t_shape].
  rewrite <- !list_fmap_compose, <- length_indices.
  apply fmap_replicate_const. intros idx. simpl. by case_bool_decide.
Qed.

(** X7: on an allocated square array, [Identity(scale=0.0)] and [Zero()]
    with the same declared dtype do the same: the same outcome and the same
    store, all elements [+0.0]. *)
Theorem identity_zero_scale_is_zero st r a b n dt :
  allocated st r a b ->
  nd_shape a = [n; n] ->
  apply (IdentityInitializer (Identity.Build (PyFloat zero64) dt)) r st
  = apply (ConstantInitializer (_Constant.Build Zero.fill_value dt)) r st.
Proof.
  intros Hal Hs. pose proof Hal as (Ho & _).
  rewrite (identity_call_eval st r a b n) by done.
  change Zero.fill_value with (PyNum (PyFloat zero64)).
  destruct (dtype_ok (IdentityInitializer (Identity.Build (PyFloat zero64) dt)) a) eqn:Hd.
  - assert (Hdt : dt = None \/ dt = Some (nd_dtype a)).
    { unfold dtype_ok in Hd. simpl in Hd. destruct dt as [d|]; [|by left].
      apply bool_decide_eq_true in Hd. right. by rewrite Hd. }
    rewrite (constant_scalar_eval st r a b (PyFloat zero64) dt zero64) by done.
    cbn [Identity.scale num_of_scalar to_float64].
    by rewrite identity_cells_zero, Hs.
  - symmetry. by apply (apply_dtype_mismatch _ _ _ a).
Qed.

Lemma identity_zero_scale_is_zero_witness :
  let st := full_store [2; 2] float32 nan64 in
  apply (IdentityInitializer (Identity.Build (PyFloat zero64) (Some float32))) 0 st
  = apply (ConstantInitializer (_Constant.Build Zero.fill_value (Some float32))) 0 st.
Proof.
  apply (identity_zero_scale_is_zero (full_store [2; 2] float32 nan64) 0
           (NdArray 0 0 [2; 2] float32) (Buffer CpuDevice (replicate 4 nan64)) 2
           (Some float32)).
  - unfold allocated. split; [reflexivity|]. split; [reflexivity|]. simpl. lia.
  - reflexivity.
Defined.
